(** * The request orchestrator of the AI-doctor voice bot

    A shallow embedding of [process_inputs] from [backend/gradio-app.py]:
    the Gradio callback that transcribes a recorded question, optionally
    asks a vision model about an uploaded image, and synthesises the
    answer as speech.  The function is a straight line of calls into three
    sibling modules ([voice_of_the_patient], [brain_of_the_doctor],
    [voice_of_the_doctor]); those calls may raise, and they act on the
    process environment and on the file system.  The embedding threads a
    run-time state through a small state-and-exception monad and records
    every call that leaves the orchestrator. *)

From Stdlib Require Import String Ascii List.
From stdpp Require Import gmap strings list.
Import ListNotations.

Local Open Scope stdpp_scope.

(** ** Values and the world *)

(** A Python exception, identified by its message. *)
Definition fault : Type := string.

(** What outlives a request: the process environment ([os.environ]) and
    the files on disk, as path |-> contents. *)
Record World : Type := mkWorld {
  environ : gmap string string;
  files : gmap string string
}.

(** A call into a sibling module either returns a value or raises; in both
    cases it may have acted on the world. *)
Inductive Outcome (A : Type) : Type :=
| Returned (a : A) (w : World)
| Raised (e : fault) (w : World).
Arguments Returned {A} a w.
Arguments Raised {A} e w.

(** The four imported functions that [process_inputs] calls; the binders
    carry the keyword names of the call sites.  Optional values (the
    result of [os.environ.get], the path handed to [gr.Audio] for
    playback) are [option string], with [None] for Python's [None]. *)
Record Collaborators : Type := mkCollaborators {
  transcribe_with_groq :
    forall (GROQ_API_KEY : option string) (audio_filepath stt_model : string),
      World -> Outcome string;
  encode_image :
    forall (image_path : string), World -> Outcome string;
  analyze_image_with_query :
    forall (query encoded_image model : string), World -> Outcome string;
  text_to_speech_with_elevenlabs :
    forall (input_text output_filepath : string),
      World -> Outcome (option string)
}.

(** ** The record of calls *)

Inductive Call : Type :=
| CTranscribe (GROQ_API_KEY : option string) (audio_filepath stt_model : string)
| CEncodeImage (image_path : string)
| CAnalyze (query encoded_image model : string)
| CSynthesize (input_text output_filepath : string).

(** One entry per call made, in order; [raised] is the fault the call
    ended with, if any. *)
Record Entry : Type := mkEntry {
  call : Call;
  raised : option fault
}.

Record State : Type := mkState {
  world : World;
  stdout : list string;
  trace : list Entry
}.

Definition start (w : World) : State :=
  {| world := w; stdout := []; trace := [] |}.

(** ** The monad *)

Inductive Result (A : Type) : Type :=
| Ok (a : A)
| Exn (e : fault).
Arguments Ok {A} a.
Arguments Exn {A} e.

Definition M (A : Type) : Type := State -> Result A * State.

(** [M] is a monad in stdpp's sense, which gives the [x ← m; k] and
    [m;; k] notations. *)
#[global] Instance M_ret : MRet M := fun A a s => (Ok a, s).

#[global] Instance M_bind : MBind M := fun A B k m s =>
  match m s with
  | (Ok a, s') => k a s'
  | (Exn e, s') => (Exn e, s')
  end.

(** [print(line)] *)
Definition print (line : string) : M unit :=
  fun s =>
    (Ok tt, {| world := world s; stdout := stdout s ++ [line]; trace := trace s |}).

(** [os.environ.get(name)] *)
Definition os_environ_get (name : string) : M (option string) :=
  fun s => (Ok (environ (world s) !! name), s).

(** A call that leaves the orchestrator: run it on the current world,
    log it, and return or re-raise. *)
Definition invoke {A : Type} (c : Call) (f : World -> Outcome A) : M A :=
  fun s =>
    match f (world s) with
    | Returned a w =>
        (Ok a, {| world := w; stdout := stdout s;
                  trace := trace s ++ [{| call := c; raised := None |}] |})
    | Raised e w =>
        (Exn e, {| world := w; stdout := stdout s;
                   trace := trace s ++ [{| call := c; raised := Some e |}] |})
    end.

(** ** The program *)

(** [str(v)] for an optional path, as an f-string formats it. *)
Definition py_str (v : option string) : string :=
  match v with
  | None => "None"
  | Some p => p
  end.

(** The module-level [system_prompt] (a triple-quoted literal: the line
    breaks and the indentation are part of the string). *)
Definition system_prompt : string :=
  "You have to act as a professional doctor, i know you are not but this is for learning purpose. 
            What's in this image?. Do you find anything wrong with it medically? 
            If you make a differential, suggest some remedies for them. Donot add any numbers or special characters in 
            your response. Your response should be in one long paragraph. Also always answer as if you are answering to a real person.
            Donot say 'In the image I see' but say 'With what I see, I think you have ....'
            Dont respond as an AI model in markdown, your answer should mimic that of an actual doctor not an AI bot, 
            Keep your answer concise (max 2 sentences). No preamble, start your answer right away please".

Section Orchestrator.

Variable svc : Collaborators.

Definition transcribe (key : option string) (audio model : string) : M string :=
  invoke (CTranscribe key audio model) (transcribe_with_groq svc key audio model).

Definition encode (image : string) : M string :=
  invoke (CEncodeImage image) (encode_image svc image).

Definition analyze (query encoded model : string) : M string :=
  invoke (CAnalyze query encoded model)
         (analyze_image_with_query svc query encoded model).

Definition synthesize (text out : string) : M (option string) :=
  invoke (CSynthesize text out) (text_to_speech_with_elevenlabs svc text out).

(** [process_inputs(audio_filepath, image_filepath)].  [if image_filepath:]
    is Python truthiness: [None] and the empty string take the [else]
    branch.  The keyword arguments of a call are evaluated left to
    right, so the prompt is built before [encode_image] runs, and
    [encode_image] runs before [analyze_image_with_query]. *)
Definition process_inputs (audio_filepath image_filepath : option string)
  : M (string * string * option string) :=
  print ("Audio filepath received: " +:+ py_str audio_filepath);;
  match audio_filepath with
  | None =>
      mret ("No audio recorded", "Please record your question first", None)
  | Some audio =>
      key ← os_environ_get "GROQ_API_KEY";
      speech_to_text_output ← transcribe key audio "whisper-large-v3";
      doctor_response ←
        match image_filepath with
        | None | Some "" =>
            mret "No image provided for me to analyze"
        | Some image =>
            let query := system_prompt +:+ speech_to_text_output in
            encoded ← encode image;
            analyze query encoded "meta-llama/llama-4-scout-17b-16e-instruct"
        end;
      audio_path ← synthesize doctor_response "final.mp3";
      mret (speech_to_text_output, doctor_response, audio_path)
  end.

End Orchestrator.

(** ** Reading a trace *)

Definition calls (s : State) : list Call := map call (trace s).

Definition is_transcribe (c : Call) : bool :=
  match c with CTranscribe _ _ _ => true | _ => false end.

Definition is_encode (c : Call) : bool :=
  match c with CEncodeImage _ => true | _ => false end.

Definition is_analyze (c : Call) : bool :=
  match c with CAnalyze _ _ _ => true | _ => false end.

Definition is_synthesize (c : Call) : bool :=
  match c with CSynthesize _ _ => true | _ => false end.

(** The calls of one kind, in the order they were made. *)
Definition calls_of (kind : Call -> bool) (s : State) : list Call :=
  List.filter kind (calls s).

(** The state a request ends in when it starts on world [w] with nothing
    printed and nothing called yet. *)
Definition final (svc : Collaborators) (audio image : option string)
    (w : World) : State :=
  (process_inputs svc audio image (start w)).2.

(** What the caller gets back: the returned triple, or the fault. *)
Definition answer (svc : Collaborators) (audio image : option string)
    (w : World) : Result (string * string * option string) :=
  (process_inputs svc audio image (start w)).1.

(** The world a request leaves behind, on which the next one starts. *)
Definition after (svc : Collaborators) (audio image : option string)
    (w : World) : World :=
  world (final svc audio image w).

(** ** The collaborators as the specification describes them *)

(** What the vendor services answer.  Their implementation is out of
    scope; each may depend on its arguments and on the world it reads (the
    audio clip, the image, the credentials), and each may fail. *)
Record Vendor : Type := mkVendor {
  stt : option string -> string -> string -> World -> fault + string;
  b64 : string -> World -> fault + string;
  vlm : string -> string -> string -> World -> fault + string;
  tts : string -> World -> fault + string
}.

Definition write_file (path contents : string) (w : World) : World :=
  {| environ := environ w; files := <[path := contents]> (files w) |}.

Definition pure_call {A : Type} (r : fault + A) (w : World) : Outcome A :=
  match r with
  | inl e => Raised e w
  | inr a => Returned a w
  end.

(** Modelled from the spec: [transcribe_with_groq], [encode_image],
    [analyze_image_with_query] and [text_to_speech_with_elevenlabs] are
    defined in [voice_of_the_patient.py], [brain_of_the_doctor.py] and
    [voice_of_the_doctor.py], which are not part of the sources at hand.
    The specification gives their call shapes: transcription maps
    (credential, audio file path, model name) to transcript text, vision
    analysis maps (prompt text, encoded image, model name) to a free-text
    response, and speech synthesis maps (text, output path) to an audio
    file written at that path; a successful synthesis overwrites that file
    and nothing else persistent changes, and the synthesised-audio path is
    what the orchestrator hands back for playback.  The specification
    says nothing about the world after a failed call; it is left
    unchanged here, and no statement below depends on that. *)
Definition spec_collaborators (v : Vendor) : Collaborators :=
  {| transcribe_with_groq key audio model w :=
       pure_call (stt v key audio model w) w;
     encode_image image w :=
       pure_call (b64 v image w) w;
     analyze_image_with_query query encoded model w :=
       pure_call (vlm v query encoded model w) w;
     text_to_speech_with_elevenlabs text out w :=
       match tts v text w with
       | inl e => Raised e w
       | inr audio => Returned (Some out) (write_file out audio w)
       end |}.

(** ** A concrete vendor, for running the program *)

(** Transcription needs a credential and an existing clip, and answers
    with the clip's contents; encoding needs an existing image; the
    vision model rejects an empty image and otherwise gives one fixed
    answer; synthesis refuses the empty text. *)
Definition demo_vendor : Vendor :=
  {| stt key audio _ w :=
       match key, files w !! audio with
       | Some _, Some clip => inr clip
       | None, _ => inl "AuthenticationError"
       | _, None => inl "FileNotFoundError"
       end;
     b64 image w :=
       match files w !! image with
       | Some bytes => inr ("b64:" +:+ bytes)
       | None => inl "FileNotFoundError"
       end;
     vlm query encoded _ _ :=
       if String.eqb encoded "b64:" then inl "BadRequestError"
       else inr "With what I see, I think you have a mild rash";
     tts text _ :=
       if String.eqb text "" then inl "ApiError" else inr ("mp3:" +:+ text) |}.

Definition demo : Collaborators := spec_collaborators demo_vendor.

Definition demo_world : World :=
  {| environ := {[ "GROQ_API_KEY" := "gsk" ]};
     files := {[ "q.wav" := "What is this rash on my arm" ]}
              ∪ {[ "arm.png" := "PNG" ]} |}.


(** ** More ways to read a run *)

(** Which of the four imported functions a call went to. *)
Inductive Kind : Type :=
| KTranscribe
| KEncode
| KAnalyze
| KSynthesize.

Definition kind_of (c : Call) : Kind :=
  match c with
  | CTranscribe _ _ _ => KTranscribe
  | CEncodeImage _ => KEncode
  | CAnalyze _ _ _ => KAnalyze
  | CSynthesize _ _ => KSynthesize
  end.

(** The world a call leaves behind, whether it returned or raised. *)
Definition outcome_world {A : Type} (o : Outcome A) : World :=
  match o with
  | Returned _ w => w
  | Raised _ w => w
  end.

(** The fault a call ended with, if it raised. *)
Definition outcome_fault {A : Type} (o : Outcome A) : option fault :=
  match o with
  | Returned _ _ => None
  | Raised e _ => Some e
  end.

(** ** More concrete runs *)

(** A world whose uploaded image is an empty file, which the vision
    model of [demo_vendor] rejects. *)
Definition blank_image_world : World :=
  {| environ := environ demo_world;
     files := <["blank.png" := ""]> (files demo_world) |}.

(** [demo_vendor] with a speech service that is down. *)
Definition mute_vendor : Vendor :=
  {| stt := stt demo_vendor;
     b64 := b64 demo_vendor;
     vlm := vlm demo_vendor;
     tts _ _ := inl "ApiError" |}.

Definition mute : Collaborators := spec_collaborators mute_vendor.

(** * Properties *)

(** The prompt literal has the length Python reports for it. *)
Example system_prompt_length : String.length system_prompt = 748.
Proof. reflexivity. Qed.

(** Unfold one request down to the collaborators' outcomes. *)
Ltac reduce_request :=
  cbn [world stdout trace fst snd call raised map List.filter app
       is_transcribe is_encode is_analyze is_synthesize
       transcribe_with_groq encode_image analyze_image_with_query
       text_to_speech_with_elevenlabs spec_collaborators] in *;
  unfold pure_call in *.

Ltac unfold_request :=
  unfold answer, final, calls_of, calls, process_inputs, transcribe, encode,
    analyze, synthesize, invoke, print, os_environ_get, mbind, M_bind, mret,
    M_ret, start in *;
  reduce_request.

(** Case analysis on the next outcome the goal or a hypothesis is stuck
    on: a vendor's answer first, a collaborator's outcome otherwise. *)
Ltac next_outcome :=
  match goal with
  | |- context [match ?o with inl _ => _ | inr _ => _ end] =>
      destruct o eqn:?
  | H : context [match ?o with inl _ => _ | inr _ => _ end] |- _ =>
      destruct o eqn:?
  | |- context [match ?o with Returned _ _ => _ | Raised _ _ => _ end] =>
      destruct o eqn:?
  | H : context [match ?o with Returned _ _ => _ | Raised _ _ => _ end] |- _ =>
      destruct o eqn:?
  end;
  reduce_request.

Ltac all_outcomes := unfold_request; repeat next_outcome.

(** The three shapes of the image argument that [if image_filepath:]
    tells apart. *)
Lemma image_cases (image : option string) :
  image = None ∨ image = Some "" ∨
  ∃ c rest, image = Some (String c rest).
Proof. destruct image as [[|c rest]|]; eauto. Qed.

(** With an audio path the trace opens with the transcription call, and
    holds no second one. *)
Lemma trace_opens_with_transcription (svc : Collaborators)
    (audio : string) (image : option string) (w : World) :
  ∃ rest,
    calls (final svc (Some audio) image w)
      = CTranscribe (environ w !! "GROQ_API_KEY") audio "whisper-large-v3"
        :: rest
    ∧ List.filter is_transcribe rest = [].
Proof.
  destruct (image_cases image) as [-> | [-> | (c & r & ->)]];
    all_outcomes; eexists; split; reflexivity.
Qed.

(** The [else] branch of the image test: no encoding, no vision call,
    and the sentinel as response. *)
Lemma falsy_image_skips_vision (svc : Collaborators)
    (audio : string) (image : option string) (w : World) :
  image = None ∨ image = Some "" →
  calls_of is_analyze (final svc (Some audio) image w) = []
  ∧ calls_of is_encode (final svc (Some audio) image w) = []
  ∧ ∀ t r p,
      answer svc (Some audio) image w = Ok (t, r, p) →
      r = "No image provided for me to analyze".
Proof.
  intros [-> | ->]; (split; [|split]);
    try (all_outcomes; reflexivity);
    intros t r p H; all_outcomes; congruence.
Qed.

(** C2: without an audio path the callback returns the fixed placeholder
    triple, with [None] for the audio, calls no collaborator at all, and
    leaves the world as it was. *)
Theorem no_audio_returns_placeholders (svc : Collaborators)
    (image : option string) (w : World) :
  answer svc None image w
    = Ok ("No audio recorded", "Please record your question first", None)
  ∧ calls (final svc None image w) = []
  ∧ world (final svc None image w) = w.
Proof. repeat split. Qed.

(** C8: with an audio path, the first call made is the transcription, on
    the given audio path, with the model ["whisper-large-v3"] and the
    value of [GROQ_API_KEY] in the process environment as the credential,
    and no later call is a transcription.  That call is the collaborator
    itself, applied to these arguments in the world the request started
    in: the first entry of the trace carries the fault of that very
    application, a fault of it is the request's fault and its world the
    request's final world, and the transcript of a request that returns
    is what it returned. *)
Theorem transcription_first_and_once (svc : Collaborators)
    (audio : string) (image : option string) (w : World) :
  (∃ rest,
     calls (final svc (Some audio) image w)
       = CTranscribe (environ w !! "GROQ_API_KEY") audio "whisper-large-v3"
         :: rest
     ∧ List.filter is_transcribe rest = [])
  ∧ head (trace (final svc (Some audio) image w))
    = Some {| call := CTranscribe (environ w !! "GROQ_API_KEY") audio
                        "whisper-large-v3";
              raised := outcome_fault
                          (transcribe_with_groq svc
                             (environ w !! "GROQ_API_KEY") audio
                             "whisper-large-v3" w) |}
  ∧ (∀ e w1,
       transcribe_with_groq svc (environ w !! "GROQ_API_KEY") audio
         "whisper-large-v3" w = Raised e w1 →
       answer svc (Some audio) image w = Exn e
       ∧ after svc (Some audio) image w = w1)
  ∧ (∀ t r p,
       answer svc (Some audio) image w = Ok (t, r, p) →
       ∃ w1,
         transcribe_with_groq svc (environ w !! "GROQ_API_KEY") audio
           "whisper-large-v3" w = Returned t w1).
Proof.
  split; [apply trace_opens_with_transcription|]. split; [|split].
  - destruct (image_cases image) as [-> | [-> | (c & r & ->)]];
      unfold_request;
      destruct (transcribe_with_groq svc _ audio _ w);
      reduce_request; repeat next_outcome; reflexivity.
  - intros e w1 H. unfold after. unfold_request. rewrite H.
    split; reflexivity.
  - intros t r p H.
    destruct (image_cases image) as [-> | [-> | (c & rest & ->)]];
      all_outcomes; try discriminate H; injection H as <- <- <-; eauto.
Qed.

Lemma transcription_first_and_once_witness :
  (answer demo (Some "missing.wav") None demo_world = Exn "FileNotFoundError"
   ∧ after demo (Some "missing.wav") None demo_world = demo_world)
  ∧ ∃ w1,
      transcribe_with_groq demo (environ demo_world !! "GROQ_API_KEY")
        "q.wav" "whisper-large-v3" demo_world
      = Returned "What is this rash on my arm" w1.
Proof.
  split.
  - apply (proj1 (proj2 (proj2 (transcription_first_and_once demo
                                  "missing.wav" None demo_world)))).
    vm_compute; reflexivity.
  - apply (proj2 (proj2 (proj2 (transcription_first_and_once demo
                                  "q.wav" None demo_world)))
             _ "No image provided for me to analyze" (Some "final.mp3")).
    vm_compute; reflexivity.
Defined.

(** C1: with an audio path and an image path, whatever reaches the
    vision-analysis collaborator is the fixed prompt followed by the
    transcript, the text [encode_image] produced for the image, and the
    fixed vision model; and once transcription and encoding have
    succeeded, that call is made, once.  The call is the collaborator
    itself, applied to exactly these three arguments in the world the
    encoding left: a fault of that application is the request's fault,
    and what it returns is the response text, the text handed to the
    synthesis and, when the synthesis returns, the second component of
    the result. *)
Theorem vision_prompt_is_prefix_then_transcript (svc : Collaborators)
    (audio : string) (image : option string) (w : World) :
  (∀ query encoded model,
     CAnalyze query encoded model ∈ calls (final svc (Some audio) image w) →
     ∃ path t w1 w2,
       image = Some path
       ∧ transcribe_with_groq svc (environ w !! "GROQ_API_KEY") audio
           "whisper-large-v3" w = Returned t w1
       ∧ encode_image svc path w1 = Returned encoded w2
       ∧ query = system_prompt +:+ t
       ∧ model = "meta-llama/llama-4-scout-17b-16e-instruct")
  ∧ (∀ path t w1 encoded w2,
       image = Some path → path ≠ "" →
       transcribe_with_groq svc (environ w !! "GROQ_API_KEY") audio
         "whisper-large-v3" w = Returned t w1 →
       encode_image svc path w1 = Returned encoded w2 →
       calls_of is_analyze (final svc (Some audio) image w)
         = [CAnalyze (system_prompt +:+ t) encoded
              "meta-llama/llama-4-scout-17b-16e-instruct"])
  ∧ (∀ path t w1 encoded w2,
       image = Some path → path ≠ "" →
       transcribe_with_groq svc (environ w !! "GROQ_API_KEY") audio
         "whisper-large-v3" w = Returned t w1 →
       encode_image svc path w1 = Returned encoded w2 →
       (∀ e w3,
          analyze_image_with_query svc (system_prompt +:+ t) encoded
            "meta-llama/llama-4-scout-17b-16e-instruct" w2 = Raised e w3 →
          answer svc (Some audio) image w = Exn e
          ∧ after svc (Some audio) image w = w3)
       ∧ (∀ r w3,
            analyze_image_with_query svc (system_prompt +:+ t) encoded
              "meta-llama/llama-4-scout-17b-16e-instruct" w2
              = Returned r w3 →
            calls_of is_synthesize (final svc (Some audio) image w)
              = [CSynthesize r "final.mp3"]
            ∧ ∀ p w4,
                text_to_speech_with_elevenlabs svc r "final.mp3" w3
                  = Returned p w4 →
                answer svc (Some audio) image w = Ok (t, r, p)
                ∧ after svc (Some audio) image w = w4)).
Proof.
  split; [|split].
  - intros query encoded model Hin.
    destruct (image_cases image) as [-> | [-> | (c & r & ->)]];
      all_outcomes;
      repeat match goal with
        | H : _ ∈ [] |- _ => apply elem_of_nil in H; destruct H
        | H : _ ∈ _ :: _ |- _ =>
            apply elem_of_cons in H; destruct H as [H | H]; try discriminate H
        end.
    all: injection Hin as -> -> ->; eauto 10.
  - intros path t w1 encoded w2 -> Hpath Ht He.
    destruct path as [|c r]; [done|].
    unfold_request. rewrite Ht. cbn [world stdout trace]. rewrite He.
    repeat next_outcome; reflexivity.
  - intros path t w1 encoded w2 -> Hpath Ht He.
    destruct path as [|c rest]; [done|].
    unfold after. unfold_request. rewrite Ht. reduce_request. rewrite He.
    reduce_request. split.
    + intros e w3 Hv. rewrite Hv. split; reflexivity.
    + intros r w3 Hv. rewrite Hv. reduce_request. split.
      * next_outcome; reflexivity.
      * intros p w4 Hs. rewrite Hs. split; reflexivity.
Qed.

Lemma vision_prompt_is_prefix_then_transcript_witness :
  (∃ path t w1 w2,
     Some "arm.png" = Some path
     ∧ transcribe_with_groq demo (environ demo_world !! "GROQ_API_KEY")
         "q.wav" "whisper-large-v3" demo_world = Returned t w1
     ∧ encode_image demo path w1 = Returned "b64:PNG" w2
     ∧ system_prompt +:+ "What is this rash on my arm" = system_prompt +:+ t
     ∧ "meta-llama/llama-4-scout-17b-16e-instruct"
       = "meta-llama/llama-4-scout-17b-16e-instruct")
  ∧ calls_of is_analyze
      (final demo (Some "q.wav") (Some "arm.png") demo_world)
    = [CAnalyze (system_prompt +:+ "What is this rash on my arm") "b64:PNG"
         "meta-llama/llama-4-scout-17b-16e-instruct"]
  ∧ (answer demo (Some "q.wav") (Some "blank.png") blank_image_world
       = Exn "BadRequestError"
     ∧ after demo (Some "q.wav") (Some "blank.png") blank_image_world
       = blank_image_world)
  ∧ answer demo (Some "q.wav") (Some "arm.png") demo_world
    = Ok ("What is this rash on my arm",
          "With what I see, I think you have a mild rash", Some "final.mp3").
Proof.
  destruct (vision_prompt_is_prefix_then_transcript
              demo "q.wav" (Some "arm.png") demo_world)
    as (Hany & Hmade & Hcall).
  destruct (vision_prompt_is_prefix_then_transcript
              demo "q.wav" (Some "blank.png") blank_image_world)
    as (_ & _ & Hblank).
  split; [|split; [|split]].
  - apply Hany. vm_compute. do 2 right. left.
  - apply (Hmade "arm.png" "What is this rash on my arm" demo_world
             "b64:PNG" demo_world);
      [reflexivity | discriminate | vm_compute; reflexivity
      | vm_compute; reflexivity].
  - destruct (Hblank "blank.png" "What is this rash on my arm"
                blank_image_world "b64:" blank_image_world)
      as [Hraise _];
      [reflexivity | discriminate | vm_compute; reflexivity
      | vm_compute; reflexivity |].
    apply (Hraise "BadRequestError" blank_image_world).
    vm_compute; reflexivity.
  - destruct (Hcall "arm.png" "What is this rash on my arm" demo_world
                "b64:PNG" demo_world)
      as [_ Hret];
      [reflexivity | discriminate | vm_compute; reflexivity
      | vm_compute; reflexivity |].
    destruct (Hret "With what I see, I think you have a mild rash"
                demo_world) as [_ Hsyn]; [vm_compute; reflexivity|].
    apply (Hsyn (Some "final.mp3")
             (write_file "final.mp3"
                "mp3:With what I see, I think you have a mild rash"
                demo_world)).
    vm_compute; reflexivity.
Defined.

(** C3, as the claim words it: the response text of a request with audio
    and no image would be the string ["no image provided"].  It is not:
    the request below succeeds and its response text is a different
    string. *)
Lemma no_image_response_is_not_the_quoted_text :
  ¬ (∀ (svc : Collaborators) (audio : string) (w : World) t r p,
       answer svc (Some audio) None w = Ok (t, r, p) →
       r = "no image provided"
       ∧ calls_of is_analyze (final svc (Some audio) None w) = []).
Proof.
  intros claim.
  destruct (claim demo "q.wav" demo_world
              "What is this rash on my arm"
              "No image provided for me to analyze"
              (Some "final.mp3") eq_refl) as [H _].
  discriminate H.
Qed.

(** C3, amended: with an audio path and no image path, neither
    [encode_image] nor the vision-analysis collaborator is ever called,
    and the response text of a request that returns is the sentinel
    ["No image provided for me to analyze"]. *)
Theorem no_image_gives_sentinel_without_vision (svc : Collaborators)
    (audio : string) (w : World) :
  calls_of is_analyze (final svc (Some audio) None w) = []
  ∧ calls_of is_encode (final svc (Some audio) None w) = []
  ∧ ∀ t r p,
      answer svc (Some audio) None w = Ok (t, r, p) →
      r = "No image provided for me to analyze".
Proof. apply falsy_image_skips_vision. by left. Qed.

Lemma no_image_gives_sentinel_without_vision_witness :
  answer demo (Some "q.wav") None demo_world
    = Ok ("What is this rash on my arm",
          "No image provided for me to analyze", Some "final.mp3")
  ∧ "No image provided for me to analyze"
    = "No image provided for me to analyze".
Proof.
  split; [reflexivity|].
  apply (proj2 (proj2 (no_image_gives_sentinel_without_vision
                         demo "q.wav" demo_world))
           "What is this rash on my arm" _ (Some "final.mp3")).
  reflexivity.
Defined.

(** C4: when the transcription collaborator raises, the caller gets that
    very fault, the transcription is the only call that was made (so no
    speech synthesis, and no vision analysis either), and nothing was
    caught on the way. *)
Theorem transcription_fault_propagates (svc : Collaborators)
    (audio : string) (image : option string) (w w1 : World) (e : fault) :
  transcribe_with_groq svc (environ w !! "GROQ_API_KEY") audio
    "whisper-large-v3" w = Raised e w1 →
  answer svc (Some audio) image w = Exn e
  ∧ calls_of is_synthesize (final svc (Some audio) image w) = []
  ∧ trace (final svc (Some audio) image w)
    = [{| call := CTranscribe (environ w !! "GROQ_API_KEY") audio
                    "whisper-large-v3";
          raised := Some e |}].
Proof.
  intros H. unfold_request. rewrite H. repeat split.
Qed.

Lemma transcription_fault_propagates_witness :
  answer demo (Some "missing.wav") (Some "arm.png") demo_world
    = Exn "FileNotFoundError"
  ∧ calls_of is_synthesize
      (final demo (Some "missing.wav") (Some "arm.png") demo_world) = [].
Proof.
  destruct (transcription_fault_propagates demo "missing.wav"
              (Some "arm.png") demo_world demo_world "FileNotFoundError")
    as (Ha & Hs & _); [vm_compute; reflexivity|].
  split; [exact Ha | exact Hs].
Defined.



(** C10: the image test is truthiness, so an empty image path runs
    exactly as no image does (sentinel response, no encoding, no vision
    call), while a non-empty one takes the vision branch: after the
    transcription the next call is [encode_image] on that path, its fault
    is the request's fault, and once it returns the vision collaborator
    is applied to the prompt and its result, which gives the response.
    The audio test is [is None], so an empty audio path is transcribed
    like any other (a fault of the transcription applied to it is the
    request's fault), and no call at all is made only when the audio path
    is [None]. *)
Theorem image_by_truthiness_audio_by_none (svc : Collaborators)
    (image : option string) (w : World) :
  (∀ audio,
     process_inputs svc (Some audio) (Some "") (start w)
       = process_inputs svc (Some audio) None (start w)
     ∧ calls_of is_analyze (final svc (Some audio) (Some "") w) = []
     ∧ ∀ t r p,
         answer svc (Some audio) (Some "") w = Ok (t, r, p) →
         r = "No image provided for me to analyze")
  ∧ (∃ rest,
       calls (final svc (Some "") image w)
         = CTranscribe (environ w !! "GROQ_API_KEY") "" "whisper-large-v3"
           :: rest)
  ∧ (∀ audio, calls (final svc audio image w) = [] ↔ audio = None)
  ∧ (∀ audio path t w1,
       path ≠ "" →
       transcribe_with_groq svc (environ w !! "GROQ_API_KEY") audio
         "whisper-large-v3" w = Returned t w1 →
       (∃ rest,
          calls (final svc (Some audio) (Some path) w)
            = CTranscribe (environ w !! "GROQ_API_KEY") audio
                "whisper-large-v3"
              :: CEncodeImage path :: rest)
       ∧ (∀ e w2,
            encode_image svc path w1 = Raised e w2 →
            answer svc (Some audio) (Some path) w = Exn e)
       ∧ (∀ encoded w2,
            encode_image svc path w1 = Returned encoded w2 →
            calls_of is_analyze (final svc (Some audio) (Some path) w)
              = [CAnalyze (system_prompt +:+ t) encoded
                   "meta-llama/llama-4-scout-17b-16e-instruct"]
            ∧ ∀ t' r p,
                answer svc (Some audio) (Some path) w = Ok (t', r, p) →
                ∃ w3,
                  analyze_image_with_query svc (system_prompt +:+ t) encoded
                    "meta-llama/llama-4-scout-17b-16e-instruct" w2
                  = Returned r w3))
  ∧ (∀ e w1,
       transcribe_with_groq svc (environ w !! "GROQ_API_KEY") ""
         "whisper-large-v3" w = Raised e w1 →
       answer svc (Some "") image w = Exn e).
Proof.
  split; [|split; [|split; [|split]]].
  - intros audio. split; [reflexivity|].
    destruct (falsy_image_skips_vision svc audio (Some "") w) as (Ha & _ & Hr);
      [by right | by split].
  - destruct (trace_opens_with_transcription svc "" image w) as (rest & H & _).
    eauto.
  - intros [audio|]; split; try done.
    destruct (trace_opens_with_transcription svc audio image w)
      as (rest & H & _).
    rewrite H. discriminate.
  - intros audio path t w1 Hpath Ht. destruct path as [|c rest]; [done|].
    unfold_request. rewrite Ht. reduce_request. split; [|split].
    + repeat next_outcome; eexists; reflexivity.
    + intros e w2 He. rewrite He. reflexivity.
    + intros encoded w2 He. rewrite He. reduce_request. split.
      * repeat next_outcome; reflexivity.
      * intros t' r p H. repeat next_outcome; try discriminate H;
          injection H as <- <- <-; eauto.
  - intros e w1 H. unfold_request. rewrite H. reflexivity.
Qed.

Lemma image_by_truthiness_audio_by_none_witness :
  (answer demo (Some "q.wav") (Some "") demo_world
     = Ok ("What is this rash on my arm",
           "No image provided for me to analyze", Some "final.mp3")
   ∧ "No image provided for me to analyze"
     = "No image provided for me to analyze")
  ∧ (answer demo (Some "q.wav") (Some "lost.png") demo_world
       = Exn "FileNotFoundError")
  ∧ (∃ w3,
       analyze_image_with_query demo
         (system_prompt +:+ "What is this rash on my arm") "b64:PNG"
         "meta-llama/llama-4-scout-17b-16e-instruct" demo_world
       = Returned "With what I see, I think you have a mild rash" w3)
  ∧ answer demo (Some "") None demo_world = Exn "FileNotFoundError".
Proof.
  destruct (image_by_truthiness_audio_by_none demo None demo_world)
    as (Himg & _ & _ & Hvision & Haudio).
  split; [|split; [|split]].
  - split; [reflexivity|].
    destruct (Himg "q.wav") as (_ & _ & Hr).
    apply (Hr "What is this rash on my arm" _ (Some "final.mp3")).
    reflexivity.
  - destruct (Hvision "q.wav" "lost.png" "What is this rash on my arm"
                demo_world) as (_ & Hraise & _);
      [discriminate | vm_compute; reflexivity |].
    apply (Hraise "FileNotFoundError" demo_world). vm_compute; reflexivity.
  - destruct (Hvision "q.wav" "arm.png" "What is this rash on my arm"
                demo_world) as (_ & _ & Hret);
      [discriminate | vm_compute; reflexivity |].
    destruct (Hret "b64:PNG" demo_world) as [_ Hr];
      [vm_compute; reflexivity|].
    apply (Hr "What is this rash on my arm" _ (Some "final.mp3")).
    vm_compute; reflexivity.
  - apply (Haudio "FileNotFoundError" demo_world). vm_compute; reflexivity.
Defined.

(** A request that returns has called the synthesis exactly once, on its
    response text and the path ["final.mp3"]. *)
Lemma returned_request_synthesized_once (svc : Collaborators)
    (audio : string) (image : option string) (w : World) t r p :
  answer svc (Some audio) image w = Ok (t, r, p) →
  calls_of is_synthesize (final svc (Some audio) image w)
    = [CSynthesize r "final.mp3"].
Proof.
  intros H.
  destruct (image_cases image) as [-> | [-> | (c & rest & ->)]];
    all_outcomes; try discriminate H; injection H as <- <- <-; reflexivity.
Qed.

(** Under the collaborators of the specification, a request that returns
    hands back the path ["final.mp3"], and has changed the world in one
    place: the file at that path now holds the audio synthesised for the
    response text. *)
Lemma returned_request_wrote_final_mp3 (v : Vendor)
    (audio : string) (image : option string) (w : World) t r p :
  answer (spec_collaborators v) (Some audio) image w = Ok (t, r, p) →
  p = Some "final.mp3"
  ∧ ∃ mp3,
      tts v r w = inr mp3
      ∧ world (final (spec_collaborators v) (Some audio) image w)
        = {| environ := environ w;
             files := <["final.mp3" := mp3]> (files w) |}.
Proof.
  intros H.
  destruct (image_cases image) as [-> | [-> | (c & rest & ->)]];
    all_outcomes; try discriminate H; injection H as <- <- <-;
    (split; [reflexivity|]); eexists; (split; [eassumption|reflexivity]).
Qed.

(** C5: a request with an audio path calls the speech synthesis at most
    once and only ever on the path ["final.mp3"]; when the request
    returns, it has called it exactly once, on its response text.  As
    soon as the earlier steps have succeeded (the transcription has
    returned and the image step, if any, has given the response text),
    the synthesis is called exactly once, on that text and ["final.mp3"],
    whether it then returns or raises: the call is the collaborator
    itself applied to these arguments, its fault is logged, its world is
    the request's final world, and its outcome decides the request's.
    With the collaborators of the specification, the world after a
    request that returns differs from the world before it in the
    contents of ["final.mp3"] alone, whatever that file held before. *)
Theorem synthesis_once_into_final_mp3 :
  (∀ (svc : Collaborators) (audio : string) (image : option string)
     (w : World),
     (calls_of is_synthesize (final svc (Some audio) image w) = []
      ∨ ∃ text,
          calls_of is_synthesize (final svc (Some audio) image w)
            = [CSynthesize text "final.mp3"])
     ∧ ∀ t r p,
         answer svc (Some audio) image w = Ok (t, r, p) →
         calls_of is_synthesize (final svc (Some audio) image w)
           = [CSynthesize r "final.mp3"])
  ∧ (∀ (svc : Collaborators) (audio : string) (image : option string)
       (w w1 w2 : World) (t r : string),
       transcribe_with_groq svc (environ w !! "GROQ_API_KEY") audio
         "whisper-large-v3" w = Returned t w1 →
       match image with
       | None | Some "" =>
           r = "No image provided for me to analyze" ∧ w2 = w1
       | Some path =>
           ∃ encoded w',
             encode_image svc path w1 = Returned encoded w'
             ∧ analyze_image_with_query svc (system_prompt +:+ t) encoded
                 "meta-llama/llama-4-scout-17b-16e-instruct" w'
               = Returned r w2
       end →
       calls_of is_synthesize (final svc (Some audio) image w)
         = [CSynthesize r "final.mp3"]
       ∧ last (trace (final svc (Some audio) image w))
         = Some {| call := CSynthesize r "final.mp3";
                   raised := outcome_fault
                               (text_to_speech_with_elevenlabs svc r
                                  "final.mp3" w2) |}
       ∧ after svc (Some audio) image w
         = outcome_world (text_to_speech_with_elevenlabs svc r "final.mp3" w2)
       ∧ answer svc (Some audio) image w
         = match text_to_speech_with_elevenlabs svc r "final.mp3" w2 with
           | Returned p _ => Ok (t, r, p)
           | Raised e _ => Exn e
           end)
  ∧ (∀ (v : Vendor) (audio : string) (image : option string) (w : World)
       t r p,
       answer (spec_collaborators v) (Some audio) image w = Ok (t, r, p) →
       ∃ mp3,
         tts v r w = inr mp3
         ∧ world (final (spec_collaborators v) (Some audio) image w)
           = {| environ := environ w;
                files := <["final.mp3" := mp3]> (files w) |}).
Proof.
  split; [|split].
  - intros svc audio image w. split.
    + destruct (image_cases image) as [-> | [-> | (c & rest & ->)]];
        all_outcomes; eauto.
    + apply returned_request_synthesized_once.
  - intros svc audio image w w1 w2 t r Ht Hr. unfold after.
    destruct (image_cases image) as [-> | [-> | (c & rest & ->)]].
    + destruct Hr as [-> ->]. unfold_request. rewrite Ht. reduce_request.
      destruct (text_to_speech_with_elevenlabs svc _ _ w1);
        repeat split.
    + destruct Hr as [-> ->]. unfold_request. rewrite Ht. reduce_request.
      destruct (text_to_speech_with_elevenlabs svc _ _ w1);
        repeat split.
    + destruct Hr as (encoded & w' & He & Hv). unfold_request.
      rewrite Ht. reduce_request. rewrite He. reduce_request. rewrite Hv.
      reduce_request.
      destruct (text_to_speech_with_elevenlabs svc _ _ w2);
        repeat split.
  - intros v audio image w t r p H.
    apply (returned_request_wrote_final_mp3 v audio image w t r p H).
Qed.

Lemma synthesis_once_into_final_mp3_witness :
  answer demo (Some "q.wav") (Some "arm.png") demo_world
    = Ok ("What is this rash on my arm",
          "With what I see, I think you have a mild rash", Some "final.mp3")
  ∧ calls_of is_synthesize
      (final demo (Some "q.wav") (Some "arm.png") demo_world)
    = [CSynthesize "With what I see, I think you have a mild rash"
         "final.mp3"]
  ∧ calls_of is_synthesize
      (final mute (Some "q.wav") (Some "arm.png") demo_world)
    = [CSynthesize "With what I see, I think you have a mild rash"
         "final.mp3"]
  ∧ ∃ mp3,
      tts demo_vendor "With what I see, I think you have a mild rash"
        demo_world = inr mp3
      ∧ world (final demo (Some "q.wav") (Some "arm.png") demo_world)
        = {| environ := environ demo_world;
             files := <["final.mp3" := mp3]> (files demo_world) |}.
Proof.
  destruct synthesis_once_into_final_mp3 as (Hcall & Hreach & Hfile).
  split; [reflexivity|]. split; [|split].
  - apply (proj2 (Hcall demo "q.wav" (Some "arm.png") demo_world)
             "What is this rash on my arm" _ (Some "final.mp3")).
    vm_compute; reflexivity.
  - apply (Hreach mute "q.wav" (Some "arm.png") demo_world demo_world
             demo_world "What is this rash on my arm"
             "With what I see, I think you have a mild rash");
      [vm_compute; reflexivity
      | exists "b64:PNG", demo_world; split; vm_compute; reflexivity].
  - apply (Hfile demo_vendor "q.wav" (Some "arm.png") demo_world
             "What is this rash on my arm" _ (Some "final.mp3")).
    vm_compute; reflexivity.
Defined.

(** C7: a request with an audio path that returns, returns the triple of
    the transcription collaborator's output, the response text (the
    vision-analysis collaborator's output for the prompt built from that
    transcript when the image path is non-empty, the sentinel otherwise)
    and what the synthesis collaborator returned for that response and
    ["final.mp3"]; with the collaborators of the specification that third
    component is the path ["final.mp3"], and the file there holds the
    audio just synthesised for the response. *)
Theorem returns_transcript_response_audio_path :
  (∀ (svc : Collaborators) (audio : string) (image : option string)
     (w : World) t r p,
     answer svc (Some audio) image w = Ok (t, r, p) →
     ∃ w1 w2,
       transcribe_with_groq svc (environ w !! "GROQ_API_KEY") audio
         "whisper-large-v3" w = Returned t w1
       ∧ match image with
         | None | Some "" =>
             r = "No image provided for me to analyze" ∧ w2 = w1
         | Some path =>
             ∃ encoded w',
               encode_image svc path w1 = Returned encoded w'
               ∧ analyze_image_with_query svc (system_prompt +:+ t) encoded
                   "meta-llama/llama-4-scout-17b-16e-instruct" w'
                 = Returned r w2
         end
       ∧ text_to_speech_with_elevenlabs svc r "final.mp3" w2
         = Returned p (world (final svc (Some audio) image w)))
  ∧ (∀ (v : Vendor) (audio : string) (image : option string) (w : World)
       t r p,
       answer (spec_collaborators v) (Some audio) image w = Ok (t, r, p) →
       p = Some "final.mp3"
       ∧ ∃ mp3,
           tts v r w = inr mp3
           ∧ files (world (final (spec_collaborators v) (Some audio) image w))
               !! "final.mp3" = Some mp3).
Proof.
  split.
  - intros svc audio image w t r p H.
    destruct (image_cases image) as [-> | [-> | (c & rest & ->)]];
      all_outcomes; try discriminate H; injection H as <- <- <-;
      eauto 10.
  - intros v audio image w t r p H.
    destruct (returned_request_wrote_final_mp3 v audio image w t r p H)
      as (Hp & mp3 & Htts & Hw).
    split; [exact Hp|]. exists mp3. split; [exact Htts|].
    rewrite Hw. cbn [files]. apply lookup_insert_eq.
Qed.

Lemma returns_transcript_response_audio_path_witness :
  answer demo (Some "q.wav") (Some "arm.png") demo_world
    = Ok ("What is this rash on my arm",
          "With what I see, I think you have a mild rash", Some "final.mp3")
  ∧ (∃ w1 w2,
       transcribe_with_groq demo (environ demo_world !! "GROQ_API_KEY")
         "q.wav" "whisper-large-v3" demo_world
         = Returned "What is this rash on my arm" w1
       ∧ (∃ encoded w',
            encode_image demo "arm.png" w1 = Returned encoded w'
            ∧ analyze_image_with_query demo
                (system_prompt +:+ "What is this rash on my arm") encoded
                "meta-llama/llama-4-scout-17b-16e-instruct" w'
              = Returned "With what I see, I think you have a mild rash" w2)
       ∧ text_to_speech_with_elevenlabs demo
           "With what I see, I think you have a mild rash" "final.mp3" w2
         = Returned (Some "final.mp3")
             (world (final demo (Some "q.wav") (Some "arm.png") demo_world)))
  ∧ Some "final.mp3" = Some "final.mp3"
  ∧ ∃ mp3,
      tts demo_vendor "With what I see, I think you have a mild rash"
        demo_world = inr mp3
      ∧ files (world (final demo (Some "q.wav") (Some "arm.png") demo_world))
          !! "final.mp3" = Some mp3.
Proof.
  destruct returns_transcript_response_audio_path as [Htriple Hpath].
  split; [reflexivity|]. split.
  - apply (Htriple demo "q.wav" (Some "arm.png") demo_world).
    vm_compute; reflexivity.
  - apply (Hpath demo_vendor "q.wav" (Some "arm.png") demo_world
             "What is this rash on my arm"
             "With what I see, I think you have a mild rash"
             (Some "final.mp3")).
    vm_compute; reflexivity.
Defined.

(** C6: when the same request is run twice in succession and returns both
    times, both runs call the synthesis on the same path ["final.mp3"];
    and, with the collaborators of the specification, both hand that path
    back, the second run replaces what the first one wrote there (the
    file ends up holding the second run's audio, on top of the files that
    existed before the first run), and the second run adds no file. *)
Theorem repeated_request_overwrites_final_mp3 :
  (∀ (svc : Collaborators) (audio : string) (image : option string)
     (w : World) t1 r1 p1 t2 r2 p2,
     answer svc (Some audio) image w = Ok (t1, r1, p1) →
     answer svc (Some audio) image (after svc (Some audio) image w)
       = Ok (t2, r2, p2) →
     calls_of is_synthesize (final svc (Some audio) image w)
       = [CSynthesize r1 "final.mp3"]
     ∧ calls_of is_synthesize
         (final svc (Some audio) image (after svc (Some audio) image w))
       = [CSynthesize r2 "final.mp3"])
  ∧ (∀ (v : Vendor) (audio : string) (image : option string) (w : World)
       t1 r1 p1 t2 r2 p2,
       let svc := spec_collaborators v in
       let w1 := after svc (Some audio) image w in
       let w2 := after svc (Some audio) image w1 in
       answer svc (Some audio) image w = Ok (t1, r1, p1) →
       answer svc (Some audio) image w1 = Ok (t2, r2, p2) →
       p1 = Some "final.mp3" ∧ p2 = Some "final.mp3"
       ∧ (∃ mp3,
            tts v r2 w1 = inr mp3
            ∧ files w2 = <["final.mp3" := mp3]> (files w))
       ∧ dom (files w2) = dom (files w1)
       ∧ size (files w2) = size (files w1)).
Proof.
  split.
  - intros svc audio image w t1 r1 p1 t2 r2 p2 H1 H2. split.
    + apply (returned_request_synthesized_once _ _ _ _ _ _ _ H1).
    + apply (returned_request_synthesized_once _ _ _ _ _ _ _ H2).
  - intros v audio image w t1 r1 p1 t2 r2 p2 svc w1 w2 H1 H2.
    destruct (returned_request_wrote_final_mp3 v audio image w _ _ _ H1)
      as (Hp1 & mp3a & _ & Hw1).
    destruct (returned_request_wrote_final_mp3 v audio image w1 _ _ _ H2)
      as (Hp2 & mp3b & Htts & Hw2).
    fold svc in Hw1, Hw2. fold (after svc (Some audio) image w) in Hw1.
    fold (after svc (Some audio) image w1) in Hw2.
    fold w1 in Hw1. fold w2 in Hw2.
    assert (Hfiles : files w2 = <["final.mp3" := mp3b]> (files w)).
    { rewrite Hw2, Hw1. cbn [files]. apply insert_insert_eq. }
    assert (Hdom : dom (files w2) = dom (files w1)).
    { rewrite Hfiles, Hw1. cbn [files]. by rewrite !dom_insert_L. }
    repeat split; eauto.
    rewrite <- !size_dom, Hdom. reflexivity.
Qed.

Lemma repeated_request_overwrites_final_mp3_witness :
  answer demo (Some "q.wav") (Some "arm.png") demo_world
    = Ok ("What is this rash on my arm",
          "With what I see, I think you have a mild rash", Some "final.mp3")
  ∧ answer demo (Some "q.wav") (Some "arm.png")
      (after demo (Some "q.wav") (Some "arm.png") demo_world)
    = Ok ("What is this rash on my arm",
          "With what I see, I think you have a mild rash", Some "final.mp3")
  ∧ calls_of is_synthesize
      (final demo (Some "q.wav") (Some "arm.png")
         (after demo (Some "q.wav") (Some "arm.png") demo_world))
    = [CSynthesize "With what I see, I think you have a mild rash"
         "final.mp3"]
  ∧ size (files (after demo (Some "q.wav") (Some "arm.png")
                   (after demo (Some "q.wav") (Some "arm.png") demo_world)))
    = size (files (after demo (Some "q.wav") (Some "arm.png") demo_world)).
Proof.
  destruct repeated_request_overwrites_final_mp3 as [Hcalls Hfiles].
  split; [reflexivity|]. split; [vm_compute; reflexivity|]. split.
  - apply (Hcalls demo "q.wav" (Some "arm.png") demo_world
             "What is this rash on my arm"
             "With what I see, I think you have a mild rash"
             (Some "final.mp3")
             "What is this rash on my arm"
             "With what I see, I think you have a mild rash"
             (Some "final.mp3"));
      vm_compute; reflexivity.
  - apply (Hfiles demo_vendor "q.wav" (Some "arm.png") demo_world
             "What is this rash on my arm"
             "With what I see, I think you have a mild rash"
             (Some "final.mp3")
             "What is this rash on my arm"
             "With what I see, I think you have a mild rash"
             (Some "final.mp3"));
      vm_compute; reflexivity.
Defined.

(** * Further properties of [process_inputs] *)

(** ** Faults *)



(** X5: when the transcript is there but [encode_image] raises on the
    (non-empty) image path, the caller gets that fault, and the request
    has made two calls, the transcription and the failed encoding: the
    vision model and the speech synthesis are never reached. *)
Theorem encoding_fault_stops_request (svc : Collaborators)
    (audio path : string) (w w1 w2 : World) (t : string) (e : fault) :
  path ≠ "" →
  transcribe_with_groq svc (environ w !! "GROQ_API_KEY") audio
    "whisper-large-v3" w = Returned t w1 →
  encode_image svc path w1 = Raised e w2 →
  answer svc (Some audio) (Some path) w = Exn e
  ∧ calls (final svc (Some audio) (Some path) w)
    = [CTranscribe (environ w !! "GROQ_API_KEY") audio "whisper-large-v3";
       CEncodeImage path]
  ∧ after svc (Some audio) (Some path) w = w2.
Proof.
  intros Hpath Ht He. destruct path as [|c rest]; [done|].
  unfold after. unfold_request. rewrite Ht. reduce_request. rewrite He.
  repeat split.
Qed.

Lemma encoding_fault_stops_request_witness :
  answer demo (Some "q.wav") (Some "lost.png") demo_world
    = Exn "FileNotFoundError"
  ∧ calls (final demo (Some "q.wav") (Some "lost.png") demo_world)
    = [CTranscribe (Some "gsk") "q.wav" "whisper-large-v3";
       CEncodeImage "lost.png"].
Proof.
  destruct (encoding_fault_stops_request demo "q.wav" "lost.png"
              demo_world demo_world demo_world
              "What is this rash on my arm" "FileNotFoundError")
    as (Ha & Hc & _);
    [discriminate | vm_compute; reflexivity | vm_compute; reflexivity |].
  split; [exact Ha | exact Hc].
Defined.

(** X6: when transcription and encoding have returned and the vision
    model raises, the caller gets that fault and the speech synthesis is
    never called: the request has made exactly the three calls up to the
    failed one. *)
Theorem vision_fault_stops_request (svc : Collaborators)
    (audio path : string) (w w1 w2 w3 : World) (t encoded : string)
    (e : fault) :
  path ≠ "" →
  transcribe_with_groq svc (environ w !! "GROQ_API_KEY") audio
    "whisper-large-v3" w = Returned t w1 →
  encode_image svc path w1 = Returned encoded w2 →
  analyze_image_with_query svc (system_prompt +:+ t) encoded
    "meta-llama/llama-4-scout-17b-16e-instruct" w2 = Raised e w3 →
  answer svc (Some audio) (Some path) w = Exn e
  ∧ calls (final svc (Some audio) (Some path) w)
    = [CTranscribe (environ w !! "GROQ_API_KEY") audio "whisper-large-v3";
       CEncodeImage path;
       CAnalyze (system_prompt +:+ t) encoded
         "meta-llama/llama-4-scout-17b-16e-instruct"]
  ∧ after svc (Some audio) (Some path) w = w3.
Proof.
  intros Hpath Ht He Hv. destruct path as [|c rest]; [done|].
  unfold after. unfold_request. rewrite Ht. reduce_request. rewrite He.
  reduce_request. rewrite Hv. repeat split.
Qed.

Lemma vision_fault_stops_request_witness :
  answer demo (Some "q.wav") (Some "blank.png") blank_image_world
    = Exn "BadRequestError"
  ∧ calls_of is_synthesize
      (final demo (Some "q.wav") (Some "blank.png") blank_image_world) = [].
Proof.
  destruct (vision_fault_stops_request demo "q.wav" "blank.png"
              blank_image_world blank_image_world blank_image_world
              blank_image_world "What is this rash on my arm" "b64:"
              "BadRequestError")
    as (Ha & Hc & _);
    [discriminate | vm_compute; reflexivity | vm_compute; reflexivity
    | vm_compute; reflexivity |].
  split; [exact Ha|]. unfold calls_of. rewrite Hc. reflexivity.
Defined.

(** X7: when everything before it has returned and the speech synthesis
    raises, the whole request ends in that fault: the transcript and the
    response text, though computed, are not handed to the caller.  The
    synthesis has been called once, on the response and ["final.mp3"]. *)
Theorem synthesis_fault_loses_the_texts (svc : Collaborators)
    (audio : string) (image : option string) (w w1 w2 w3 : World)
    (t r : string) (e : fault) :
  transcribe_with_groq svc (environ w !! "GROQ_API_KEY") audio
    "whisper-large-v3" w = Returned t w1 →
  match image with
  | None | Some "" => r = "No image provided for me to analyze" ∧ w2 = w1
  | Some path =>
      ∃ encoded w',
        encode_image svc path w1 = Returned encoded w'
        ∧ analyze_image_with_query svc (system_prompt +:+ t) encoded
            "meta-llama/llama-4-scout-17b-16e-instruct" w' = Returned r w2
  end →
  text_to_speech_with_elevenlabs svc r "final.mp3" w2 = Raised e w3 →
  answer svc (Some audio) image w = Exn e
  ∧ calls_of is_synthesize (final svc (Some audio) image w)
    = [CSynthesize r "final.mp3"]
  ∧ after svc (Some audio) image w = w3.
Proof.
  intros Ht Hr Hs. unfold after.
  destruct (image_cases image) as [-> | [-> | (c & rest & ->)]].
  - destruct Hr as [-> ->]. unfold_request. rewrite Ht. reduce_request.
    rewrite Hs. repeat split.
  - destruct Hr as [-> ->]. unfold_request. rewrite Ht. reduce_request.
    rewrite Hs. repeat split.
  - destruct Hr as (encoded & w' & He & Hv). unfold_request.
    rewrite Ht. reduce_request. rewrite He. reduce_request. rewrite Hv.
    reduce_request. rewrite Hs. repeat split.
Qed.

Lemma synthesis_fault_loses_the_texts_witness :
  answer mute (Some "q.wav") (Some "arm.png") demo_world = Exn "ApiError"
  ∧ calls_of is_synthesize
      (final mute (Some "q.wav") (Some "arm.png") demo_world)
    = [CSynthesize "With what I see, I think you have a mild rash"
         "final.mp3"].
Proof.
  destruct (synthesis_fault_loses_the_texts mute "q.wav" (Some "arm.png")
              demo_world demo_world demo_world demo_world
              "What is this rash on my arm"
              "With what I see, I think you have a mild rash" "ApiError")
    as (Ha & Hc & _);
    [vm_compute; reflexivity
    | exists "b64:PNG", demo_world; split; vm_compute; reflexivity
    | vm_compute; reflexivity |].
  split; [exact Ha | exact Hc].
Defined.

(** ** The order of the calls *)

(** X2: whatever happens, the calls of a request with an audio path come
    in the order transcription, image encoding, vision analysis, speech
    synthesis when the image path is non-empty, and transcription, speech
    synthesis otherwise, each at most once and none skipped: a request
    that stops early has made an initial part of that sequence. *)
Theorem calls_follow_the_pipeline (svc : Collaborators)
    (audio : string) (image : option string) (w : World) :
  map kind_of (calls (final svc (Some audio) image w))
    `prefix_of`
    match image with
    | None | Some "" => [KTranscribe; KSynthesize]
    | Some _ => [KTranscribe; KEncode; KAnalyze; KSynthesize]
    end.
Proof.
  destruct (image_cases image) as [-> | [-> | (c & r & ->)]];
    all_outcomes; cbn [map kind_of]; eexists; reflexivity.
Qed.

(** X3: a request that returns has made all calls of its sequence and
    none has raised: with a non-empty image path the four calls, on the
    audio path, on the image path as given, on the prompt and the encoded
    image, and on the response; without one the two calls, on the audio
    path and on the sentinel.  Each call is the collaborator applied to
    these arguments in the world the previous call left: the transcript
    is what the transcription returned, the encoded image what
    [encode_image] returned, the response what the vision analysis
    returned, and the third component what the synthesis returned. *)
Theorem returned_request_full_trace (svc : Collaborators)
    (audio : string) (image : option string) (w : World) t r p :
  answer svc (Some audio) image w = Ok (t, r, p) →
  (∃ w1 w2,
     transcribe_with_groq svc (environ w !! "GROQ_API_KEY") audio
       "whisper-large-v3" w = Returned t w1
     ∧ match image with
       | None | Some "" =>
           r = "No image provided for me to analyze" ∧ w2 = w1
           ∧ calls (final svc (Some audio) image w)
             = [CTranscribe (environ w !! "GROQ_API_KEY") audio
                  "whisper-large-v3";
                CSynthesize "No image provided for me to analyze"
                  "final.mp3"]
       | Some path =>
           ∃ encoded w',
             encode_image svc path w1 = Returned encoded w'
             ∧ analyze_image_with_query svc (system_prompt +:+ t) encoded
                 "meta-llama/llama-4-scout-17b-16e-instruct" w'
               = Returned r w2
             ∧ calls (final svc (Some audio) image w)
               = [CTranscribe (environ w !! "GROQ_API_KEY") audio
                    "whisper-large-v3";
                  CEncodeImage path;
                  CAnalyze (system_prompt +:+ t) encoded
                    "meta-llama/llama-4-scout-17b-16e-instruct";
                  CSynthesize r "final.mp3"]
       end
     ∧ text_to_speech_with_elevenlabs svc r "final.mp3" w2
       = Returned p (after svc (Some audio) image w))
  ∧ Forall (λ entry, raised entry = None)
      (trace (final svc (Some audio) image w)).
Proof.
  intros H. unfold after.
  destruct (image_cases image) as [-> | [-> | (c & rest & ->)]];
    all_outcomes; try discriminate H; injection H as <- <- <-;
    (split; [eauto 12 | repeat constructor]).
Qed.

Lemma returned_request_full_trace_witness :
  answer demo (Some "q.wav") (Some "arm.png") demo_world
    = Ok ("What is this rash on my arm",
          "With what I see, I think you have a mild rash", Some "final.mp3")
  ∧ Forall (λ entry, raised entry = None)
      (trace (final demo (Some "q.wav") (Some "arm.png") demo_world)).
Proof.
  split; [reflexivity|].
  apply (proj2 (returned_request_full_trace demo "q.wav" (Some "arm.png")
                  demo_world "What is this rash on my arm"
                  "With what I see, I think you have a mild rash"
                  (Some "final.mp3") eq_refl)).
Defined.

(** X4: the orchestrator adds no failure of its own.  When the
    transcription returns, the image step (if any) returns, and the
    synthesis returns, the request returns the transcript, the response
    and the synthesis' result, and leaves the world the synthesis left. *)
Theorem returning_collaborators_make_request_return (svc : Collaborators)
    (audio : string) (image : option string) (w w1 w2 w3 : World)
    (t r : string) (p : option string) :
  transcribe_with_groq svc (environ w !! "GROQ_API_KEY") audio
    "whisper-large-v3" w = Returned t w1 →
  match image with
  | None | Some "" => r = "No image provided for me to analyze" ∧ w2 = w1
  | Some path =>
      ∃ encoded w',
        encode_image svc path w1 = Returned encoded w'
        ∧ analyze_image_with_query svc (system_prompt +:+ t) encoded
            "meta-llama/llama-4-scout-17b-16e-instruct" w' = Returned r w2
  end →
  text_to_speech_with_elevenlabs svc r "final.mp3" w2 = Returned p w3 →
  answer svc (Some audio) image w = Ok (t, r, p)
  ∧ after svc (Some audio) image w = w3.
Proof.
  intros Ht Hr Hs. unfold after.
  destruct (image_cases image) as [-> | [-> | (c & rest & ->)]].
  - destruct Hr as [-> ->]. unfold_request. rewrite Ht. reduce_request.
    rewrite Hs. split; reflexivity.
  - destruct Hr as [-> ->]. unfold_request. rewrite Ht. reduce_request.
    rewrite Hs. split; reflexivity.
  - destruct Hr as (encoded & w' & He & Hv). unfold_request.
    rewrite Ht. reduce_request. rewrite He. reduce_request. rewrite Hv.
    reduce_request. rewrite Hs. split; reflexivity.
Qed.

Lemma returning_collaborators_make_request_return_witness :
  answer demo (Some "q.wav") None demo_world
    = Ok ("What is this rash on my arm",
          "No image provided for me to analyze", Some "final.mp3")
  ∧ after demo (Some "q.wav") None demo_world
    = write_file "final.mp3" "mp3:No image provided for me to analyze"
        demo_world.
Proof.
  apply (returning_collaborators_make_request_return demo "q.wav" None
           demo_world demo_world demo_world);
    [vm_compute; reflexivity | split; reflexivity | vm_compute; reflexivity].
Defined.

(** X11: the image cannot influence the transcription.  Whatever the two
    image arguments, the first call of the request and its outcome are
    the same, and if both requests return, they return the same
    transcript. *)
Theorem transcript_independent_of_image (svc : Collaborators)
    (audio : string) (image image' : option string) (w : World) :
  head (trace (final svc (Some audio) image w))
    = head (trace (final svc (Some audio) image' w))
  ∧ ∀ t r p t' r' p',
      answer svc (Some audio) image w = Ok (t, r, p) →
      answer svc (Some audio) image' w = Ok (t', r', p') →
      t = t'.
Proof.
  split.
  - destruct (image_cases image) as [-> | [-> | (c & r & ->)]];
      destruct (image_cases image') as [-> | [-> | (c' & r' & ->)]];
      unfold_request;
      destruct (transcribe_with_groq svc _ audio _ w);
      reduce_request; repeat next_outcome; reflexivity.
  - intros t r p t' r' p' H H'.
    destruct (image_cases image) as [-> | [-> | (c & rest & ->)]];
      destruct (image_cases image') as [-> | [-> | (c' & rest' & ->)]];
      unfold_request;
      destruct (transcribe_with_groq svc _ audio _ w);
      reduce_request; try discriminate H;
      repeat next_outcome; congruence.
Qed.

Lemma transcript_independent_of_image_witness :
  answer demo (Some "q.wav") (Some "arm.png") demo_world
    = Ok ("What is this rash on my arm",
          "With what I see, I think you have a mild rash", Some "final.mp3")
  ∧ answer demo (Some "q.wav") None demo_world
    = Ok ("What is this rash on my arm",
          "No image provided for me to analyze", Some "final.mp3")
  ∧ "What is this rash on my arm" = "What is this rash on my arm".
Proof.
  split; [reflexivity|]. split; [reflexivity|].
  apply (proj2 (transcript_independent_of_image demo "q.wav"
                  (Some "arm.png") None demo_world)
           _ _ _ _ _ _ eq_refl eq_refl).
Defined.

(** ** What the orchestrator does itself *)

(** X8: every request prints exactly one line, the label followed by the
    audio path as given (or by [None] when there is none), whether it
    short-circuits, returns, or ends in a fault. *)
Theorem one_debug_line_per_request (svc : Collaborators)
    (audio image : option string) (w : World) :
  stdout (final svc audio image w)
    = ["Audio filepath received: " +:+ py_str audio].
Proof.
  destruct audio as [audio|]; [|reflexivity].
  destruct (image_cases image) as [-> | [-> | (c & r & ->)]];
    all_outcomes; reflexivity.
Qed.

(** X9: the orchestrator writes nothing itself: a property of the world
    that each of the four collaborators keeps, whether it returns or
    raises, still holds after the request. *)
Theorem request_keeps_what_collaborators_keep (svc : Collaborators)
    (Inv : World → Prop) (audio image : option string) (w : World) :
  (∀ key clip model w0,
     Inv w0 →
     Inv (outcome_world (transcribe_with_groq svc key clip model w0))) →
  (∀ path w0, Inv w0 → Inv (outcome_world (encode_image svc path w0))) →
  (∀ query encoded model w0,
     Inv w0 →
     Inv (outcome_world
            (analyze_image_with_query svc query encoded model w0))) →
  (∀ text out w0,
     Inv w0 →
     Inv (outcome_world (text_to_speech_with_elevenlabs svc text out w0))) →
  Inv w →
  Inv (after svc audio image w).
Proof.
  intros Ht He Hv Hs Hw. unfold after.
  destruct audio as [audio|]; [|exact Hw].
  destruct (image_cases image) as [-> | [-> | (c & r & ->)]];
    unfold_request;
    repeat match goal with
      | |- context [match ?f ?w0 with Returned _ _ => _ | Raised _ _ => _ end] =>
          let Ho := fresh "Ho" in
          let Hi := fresh "Hi" in
          assert (Hi : Inv (outcome_world (f w0))) by eauto;
          destruct (f w0) eqn:Ho; cbn [outcome_world] in Hi; reduce_request
      end;
    assumption.
Qed.

Lemma request_keeps_what_collaborators_keep_witness :
  environ (after demo (Some "q.wav") (Some "arm.png") demo_world)
    = environ demo_world.
Proof.
  apply (request_keeps_what_collaborators_keep demo
           (λ w, environ w = environ demo_world)
           (Some "q.wav") (Some "arm.png") demo_world).
  - intros key clip model w0 H. cbn [demo spec_collaborators
      transcribe_with_groq]. unfold pure_call.
    destruct (stt demo_vendor key clip model w0); exact H.
  - intros path w0 H. cbn [demo spec_collaborators encode_image].
    unfold pure_call. destruct (b64 demo_vendor path w0); exact H.
  - intros query encoded model w0 H. cbn [demo spec_collaborators
      analyze_image_with_query]. unfold pure_call.
    destruct (vlm demo_vendor query encoded model w0); exact H.
  - intros text out w0 H. cbn [demo spec_collaborators
      text_to_speech_with_elevenlabs].
    destruct (tts demo_vendor text w0); exact H.
  - reflexivity.
Defined.

(** ** The prompt *)

Lemma append_cons (c : ascii) (s t : string) :
  String c s +:+ t = String c (s +:+ t).
Proof. reflexivity. Qed.

Lemma length_append (s t : string) :
  String.length (s +:+ t) = String.length s + String.length t.
Proof.
  induction s as [|c s IH]; [reflexivity|].
  rewrite append_cons. cbn [String.length]. by rewrite IH.
Qed.

Lemma substring_to_end (t : string) :
  String.substring 0 (String.length t) t = t.
Proof.
  induction t as [|c t IH]; [reflexivity|].
  cbn [String.length String.substring]. by rewrite IH.
Qed.

Lemma substring_after_append (s t : string) :
  String.substring (String.length s) (String.length t) (s +:+ t) = t.
Proof.
  induction s as [|c s IH]; [apply substring_to_end|].
  rewrite append_cons. exact IH.
Qed.

Lemma prefix_append (s t : string) : String.prefix s (s +:+ t) = true.
Proof.
  induction s as [|c s IH]; [by destruct t|].
  rewrite append_cons. cbn [String.prefix].
  destruct (ascii_dec c c); [exact IH | done].
Qed.

Lemma append_empty (s : string) : s +:+ "" = s.
Proof.
  induction s as [|c s IH]; [reflexivity|].
  rewrite append_cons. by rewrite IH.
Qed.

(** X10: the transcript is glued to the prompt as it is, with nothing in
    between and nothing after it.  The query of any vision call starts
    with [system_prompt], is as long as the prompt's 748 characters plus
    the transcript, and gives the transcript back when those 748
    characters are dropped; for an empty transcript it is [system_prompt]
    itself. *)
Theorem transcript_recoverable_from_query (svc : Collaborators)
    (audio : string) (image : option string) (w : World)
    (query encoded model : string) :
  CAnalyze query encoded model ∈ calls (final svc (Some audio) image w) →
  ∃ t w1,
    transcribe_with_groq svc (environ w !! "GROQ_API_KEY") audio
      "whisper-large-v3" w = Returned t w1
    ∧ String.prefix system_prompt query = true
    ∧ String.length query = 748 + String.length t
    ∧ String.substring 748 (String.length t) query = t
    ∧ (t = "" → query = system_prompt).
Proof.
  intros Hin.
  assert (∃ t w1,
            transcribe_with_groq svc (environ w !! "GROQ_API_KEY") audio
              "whisper-large-v3" w = Returned t w1
            ∧ query = system_prompt +:+ t) as (t & w1 & Ht & ->).
  { destruct (image_cases image) as [-> | [-> | (c & r & ->)]];
      all_outcomes;
      repeat match goal with
        | H : _ ∈ [] |- _ => apply elem_of_nil in H; destruct H
        | H : _ ∈ _ :: _ |- _ =>
            apply elem_of_cons in H; destruct H as [H | H]; try discriminate H
        end.
    all: injection Hin as -> -> ->; eauto. }
  exists t, w1. split; [exact Ht|].
  split; [apply prefix_append|].
  change 748 with (String.length system_prompt).
  split; [apply length_append|].
  split; [apply substring_after_append|].
  intros ->. apply append_empty.
Qed.

Lemma transcript_recoverable_from_query_witness :
  ∃ t w1,
    transcribe_with_groq demo (environ demo_world !! "GROQ_API_KEY") "q.wav"
      "whisper-large-v3" demo_world = Returned t w1
    ∧ String.prefix system_prompt
        (system_prompt +:+ "What is this rash on my arm") = true
    ∧ String.length (system_prompt +:+ "What is this rash on my arm")
      = 748 + String.length t
    ∧ String.substring 748 (String.length t)
        (system_prompt +:+ "What is this rash on my arm") = t
    ∧ (t = "" → system_prompt +:+ "What is this rash on my arm"
                = system_prompt).
Proof.
  apply (transcript_recoverable_from_query demo "q.wav" (Some "arm.png")
           demo_world _ "b64:PNG"
           "meta-llama/llama-4-scout-17b-16e-instruct").
  vm_compute. do 2 right. left.
Defined.


